(** * styx: the aiobotocore usage example [boto3_example.py]

    The script is one coroutine, [go], that drives an S3 client of the
    aiobotocore SDK, and a module-level guard that hands [go] to
    [asyncio.run].  The SDK is external to the repository: it is modelled as
    an arbitrary deterministic handler over an abstract world, which answers
    every call either with a value or with an exception.  The coroutine is
    embedded in a state-and-exception monad whose state carries the world and
    the trace of everything the script does. *)

From Stdlib Require Import List String ZArith Lia Bool.
From Stdlib Require Import Strings.Byte.
Import ListNotations.
Open Scope string_scope.
Open Scope list_scope.

Set Warnings "-register-all".

(** ** Python values *)

Definition bytes := list byte.

(** The values the script handles: strings, byte strings, the dictionaries
    the SDK answers with, and SDK objects (session, client, stream), which
    the script only passes back to the SDK. *)
Inductive pyval : Type :=
| PNone
| PInt (n : Z)
| PStr (s : string)
| PBytes (b : bytes)
| PObj (cls : string) (addr : N)
| PDict (items : list (string * pyval)).

Inductive exn : Type :=
| PyErr (cls : string) (arg : string).

(** [b * n] on byte strings; a count below one gives the empty string. *)
Definition bytes_mul (b : bytes) (n : Z) : bytes :=
  List.concat (List.repeat b (Z.to_nat n)).

Fixpoint dict_get (items : list (string * pyval)) (k : string) : option pyval :=
  match items with
  | [] => None
  | (k', v) :: rest => if String.eqb k' k then Some v else dict_get rest k
  end.

(** [v[k]] for a string key [k]: a dictionary is looked up and raises
    KeyError on a missing key; no other value of [pyval] accepts a string
    subscript. *)
Definition subscript (v : pyval) (k : string) : exn + pyval :=
  match v with
  | PDict items =>
      match dict_get items k with
      | Some x => inr x
      | None => inl (PyErr "KeyError" k)
      end
  | _ => inl (PyErr "TypeError" "object is not subscriptable")
  end.

(** ** Calls into the SDK

    One constructor per function or method the script calls, with the
    receiver first and the keyword arguments under their Python names. *)
Inductive call : Type :=
| get_session
| create_client (self : pyval) (service_name : string)
    (region_name aws_secret_access_key aws_access_key_id endpoint_url : string)
| aenter (mgr : pyval)
| aexit (mgr : pyval) (exc : option exn)
| put_object (self : pyval) (Bucket Key : string) (Body : bytes)
| get_object_acl (self : pyval) (Bucket Key : string)
| get_object (self : pyval) (Bucket Key : string)
| read (self : pyval)
| delete_object (self : pyval) (Bucket Key : string).

Inductive api : Type :=
| GET_SESSION | CREATE_CLIENT | AENTER | AEXIT
| PUT_OBJECT | GET_OBJECT_ACL | GET_OBJECT | READ | DELETE_OBJECT.

Definition api_of (c : call) : api :=
  match c with
  | get_session => GET_SESSION
  | create_client _ _ _ _ _ _ => CREATE_CLIENT
  | aenter _ => AENTER
  | aexit _ _ => AEXIT
  | put_object _ _ _ _ => PUT_OBJECT
  | get_object_acl _ _ _ => GET_OBJECT_ACL
  | get_object _ _ _ => GET_OBJECT
  | read _ => READ
  | delete_object _ _ _ => DELETE_OBJECT
  end.

Definition api_eqb (a b : api) : bool :=
  match a, b with
  | GET_SESSION, GET_SESSION | CREATE_CLIENT, CREATE_CLIENT
  | AENTER, AENTER | AEXIT, AEXIT | PUT_OBJECT, PUT_OBJECT
  | GET_OBJECT_ACL, GET_OBJECT_ACL | GET_OBJECT, GET_OBJECT
  | READ, READ | DELETE_OBJECT, DELETE_OBJECT => true
  | _, _ => false
  end.

(** The four remote operations of the object-storage API. *)
Definition remote (a : api) : bool :=
  match a with
  | PUT_OBJECT | GET_OBJECT_ACL | GET_OBJECT | DELETE_OBJECT => true
  | _ => false
  end.

(** The SDK as the script sees it.  [sdk_call] answers every call but
    [__aexit__]; [sdk_aexit] is the [__aexit__] of the SDK's two context
    managers (the client creator and the streaming body), which return None,
    so they never swallow the exception they are handed. *)
Record SDK (W : Type) : Type := {
  sdk_call : call -> W -> W * (exn + pyval);
  sdk_aexit : pyval -> option exn -> W -> W * (exn + unit)
}.
Arguments sdk_call {W} _ _ _.
Arguments sdk_aexit {W} _ _ _ _.

(** ** Traces *)

(** How a call is made: a plain call, an [await] expression, or the await
    that [async with] performs on [__aenter__] and [__aexit__]. *)
Inductive mode : Type := Sync | Await | AsyncWith.

Inductive event : Type :=
| Issued (m : mode) (c : call)
| Returned (c : call) (v : pyval)
| Raised (c : call) (e : exn)
| Printed (v : pyval)
| LoopCreated
| LoopClosed.

Record state (W : Type) : Type := {
  world : W;
  trace : list event
}.
Arguments world {W} _.
Arguments trace {W} _.

(** ** The monad of the script *)

Definition M (W A : Type) : Type := state W -> state W * (exn + A).

Definition ret {W A} (a : A) : M W A := fun s => (s, inr a).

Definition raise {W A} (e : exn) : M W A := fun s => (s, inl e).

Definition bind {W A B} (m : M W A) (k : A -> M W B) : M W B :=
  fun s =>
    match m s with
    | (s', inr a) => k a s'
    | (s', inl e) => (s', inl e)
    end.

Declare Scope py_scope.
Delimit Scope py_scope with py.
Notation "x <- m ;; k" := (bind m (fun x => k))
  (at level 100, m at next level, right associativity) : py_scope.
Notation "m ;; k" := (bind m (fun _ => k))
  (at level 100, right associativity) : py_scope.
Open Scope py_scope.

Definition emit {W} (ev : event) : M W unit :=
  fun s => ({| world := world s; trace := trace s ++ [ev] |}, inr tt).

Definition lift {W A} (r : exn + A) : M W A :=
  match r with
  | inl e => raise e
  | inr a => ret a
  end.

Section Script.

Context {W : Type}.
Variable sdk : SDK W.

(** A call into the SDK: the request is issued, the SDK answers from the
    current world, and the answer is recorded before the script goes on. *)
Definition invoke (m : mode) (c : call) : M W pyval :=
  emit (Issued m c);;
  fun s =>
    match sdk_call sdk c (world s) with
    | (w, inr v) =>
        ({| world := w; trace := trace s ++ [Returned c v] |}, inr v)
    | (w, inl e) =>
        ({| world := w; trace := trace s ++ [Raised c e] |}, inl e)
    end.

Definition invoke_aexit (mgr : pyval) (exc : option exn) : M W unit :=
  emit (Issued AsyncWith (aexit mgr exc));;
  fun s =>
    match sdk_aexit sdk mgr exc (world s) with
    | (w, inr _) =>
        ({| world := w; trace := trace s ++ [Returned (aexit mgr exc) PNone] |},
         inr tt)
    | (w, inl e) =>
        ({| world := w; trace := trace s ++ [Raised (aexit mgr exc) e] |},
         inl e)
    end.

Definition await (c : call) : M W pyval := invoke Await c.

(** [print] is [pprint.pprint]: the value goes to standard output. *)
Definition print (v : pyval) : M W unit := emit (Printed v).

(** [async with mgr as x: body].  [__aenter__] is awaited and its result
    bound; [__aexit__] is awaited when the block is left, with the exception
    if the block raised, and that exception is raised again afterwards. *)
Definition async_with (mgr : M W pyval) (body : pyval -> M W unit) : M W unit :=
  m <- mgr;;
  x <- invoke AsyncWith (aenter m);;
  fun s =>
    match body x s with
    | (s', inr _) => invoke_aexit m None s'
    | (s', inl e) => (invoke_aexit m (Some e);; raise e) s'
    end.

Definition AWS_ACCESS_KEY_ID : string := "xxx".
Definition AWS_SECRET_ACCESS_KEY : string := "xxx".

Definition go : M W unit :=
  let bucket := "dataintake" in
  let filename := "dummy.bin" in
  let folder := "aiobotocore" in
  let key := (folder ++ "/" ++ filename)%string in
  session <- invoke Sync get_session;;
  async_with
    (invoke Sync
       (create_client session "s3" "mordor"
          AWS_SECRET_ACCESS_KEY AWS_ACCESS_KEY_ID "http://styx-prime:8333"))
    (fun client =>
       let data := bytes_mul [x01] 1024 in
       resp <- await (put_object client bucket key data);;
       print (PStr "PUT OBJECT RESPONSE:");;
       print resp;;
       resp <- await (get_object_acl client bucket key);;
       print (PStr "GET OBJECT ACL RESPONSE:");;
       print resp;;
       resp <- await (get_object client bucket key);;
       async_with (lift (subscript resp "Body"))
         (fun stream =>
            await (read stream);;
            print (PStr "GET OBJECT RESPONSE:");;
            print resp);;
       resp <- await (delete_object client bucket key);;
       print (PStr "DELETE OBJECT RESPONSE:");;
       print resp).

(** [asyncio.run(coro)]: a new event loop is created, the coroutine runs on
    it until it is done, the loop is closed, and the coroutine's exception,
    if any, is raised to the caller.  The tasks of the loop (the one that
    wraps the coroutine, and those asyncio creates on its own while it shuts
    the loop down) belong to asyncio and are not part of the trace. *)
Definition asyncio_run (coro : M W unit) : M W unit :=
  emit LoopCreated;;
  fun s =>
    match coro s with
    | (s', inr _) => emit LoopClosed s'
    | (s', inl e) => (emit LoopClosed;; raise e) s'
    end.

(** The module body after the definitions: the guard on [__name__]. *)
Definition script (name : string) : M W unit :=
  if String.eqb name "__main__" then asyncio_run go else ret tt.

Definition start (w : W) : state W := {| world := w; trace := [] |}.

Definition run_go (w : W) : state W * (exn + unit) := go (start w).

(** How the interpreter process ends: normally, or on an exception nothing
    caught. *)
Inductive outcome : Type :=
| Finished
| Uncaught (e : exn).

Definition run_program (w : W) : state W * outcome :=
  match script "__main__" (start w) with
  | (s, inr _) => (s, Finished)
  | (s, inl e) => (s, Uncaught e)
  end.

End Script.

(** ** Reading a trace *)

(** The calls issued, in the order of issue, with the way each was made. *)
Fixpoint issued (t : list event) : list (mode * call) :=
  match t with
  | [] => []
  | Issued m c :: t' => (m, c) :: issued t'
  | _ :: t' => issued t'
  end.

Definition apis (t : list event) : list api :=
  map (fun mc => api_of (snd mc)) (issued t).

(** The calls made by an [await] expression of the source. *)
Fixpoint awaited (t : list event) : list call :=
  match t with
  | [] => []
  | Issued Await c :: t' => c :: awaited t'
  | _ :: t' => awaited t'
  end.

(** The calls of the four remote operations. *)
Definition remote_calls (t : list event) : list call :=
  filter (fun c => remote (api_of c)) (map snd (issued t)).

(** What went to standard output. *)
Fixpoint printed (t : list event) : list pyval :=
  match t with
  | [] => []
  | Printed v :: t' => v :: printed t'
  | _ :: t' => printed t'
  end.

(** The number of calls waiting for their answer after each event, starting
    from [n]: a call counts from its issue to its return or its exception. *)
Fixpoint in_flight (n : nat) (t : list event) : list nat :=
  match t with
  | [] => []
  | Issued _ _ :: t' => S n :: in_flight (S n) t'
  | Returned _ _ :: t' => pred n :: in_flight (pred n) t'
  | Raised _ _ :: t' => pred n :: in_flight (pred n) t'
  | _ :: t' => n :: in_flight n t'
  end.

(** Every call is answered before anything else happens: an issue is
    directly followed by the return or the exception of that same call. *)
Inductive sequential : list event -> Prop :=
| seq_nil : sequential []
| seq_return m c v t : sequential t ->
    sequential (Issued m c :: Returned c v :: t)
| seq_raise m c e t : sequential t ->
    sequential (Issued m c :: Raised c e :: t)
| seq_print v t : sequential t -> sequential (Printed v :: t)
| seq_loop_created t : sequential t -> sequential (LoopCreated :: t)
| seq_loop_closed t : sequential t -> sequential (LoopClosed :: t).

Fixpoint is_prefix (l1 l2 : list api) : bool :=
  match l1, l2 with
  | [], _ => true
  | a :: l1', b :: l2' => api_eqb a b && is_prefix l1' l2'
  | _ :: _, [] => false
  end.

Definition written_order : list api :=
  [GET_SESSION; CREATE_CLIENT; PUT_OBJECT; GET_OBJECT_ACL; GET_OBJECT; READ;
   DELETE_OBJECT].

(** The calls an [async with] statement makes on its own. *)
Definition scoping (a : api) : bool :=
  match a with
  | AENTER | AEXIT => true
  | _ => false
  end.

Definition operations (t : list event) : list api :=
  filter (fun a => negb (scoping a)) (apis t).

(** The calls [go] awaits in a run that returns, as the source writes them:
    the four client calls and the read of the body between the last two. *)
Definition awaited_in_go : list api :=
  [PUT_OBJECT; GET_OBJECT_ACL; GET_OBJECT; READ; DELETE_OBJECT].

(** The configuration a client is created with. *)
Record client_config : Type := {
  service : string;
  region : string;
  secret_key : string;
  access_key : string;
  endpoint : string
}.

Fixpoint client_configs (t : list event) : list client_config :=
  match t with
  | [] => []
  | Issued _ (create_client _ s r sk ak ep) :: t' =>
      {| service := s; region := r; secret_key := sk; access_key := ak;
         endpoint := ep |} :: client_configs t'
  | _ :: t' => client_configs t'
  end.

(** *** Scopes *)

(** A trace read for its [async with] scopes.  [Acquire n] is the return of
    an [__aenter__] that opens the scope at nesting level [n]; [Release n ok]
    is the end of the [__aexit__] that leaves the scope at level [n], [ok]
    telling whether it returned; [Op n a] is the issue of any other call,
    made with [n] scopes open. *)
Inductive scoped_op : Type :=
| Acquire (level : nat)
| Release (level : nat) (ok : bool)
| Op (level : nat) (a : api).

Fixpoint scoped (n : nat) (t : list event) : list scoped_op :=
  match t with
  | [] => []
  | Returned (aenter _) _ :: t' => Acquire (S n) :: scoped (S n) t'
  | Returned (aexit _ _) _ :: t' => Release n true :: scoped (pred n) t'
  | Raised (aexit _ _) _ :: t' => Release n false :: scoped (pred n) t'
  | Issued _ c :: t' =>
      if scoping (api_of c) then scoped n t'
      else Op n (api_of c) :: scoped n t'
  | _ :: t' => scoped n t'
  end.

(** The operations whose answer has come back. *)
Fixpoint completed (t : list event) : list api :=
  match t with
  | [] => []
  | Returned c _ :: t' => api_of c :: completed t'
  | _ :: t' => completed t'
  end.

Definition api_eq_dec (a b : api) : {a = b} + {a <> b}.
Proof. decide equality. Defined.

Definition scoped_op_eq_dec (x y : scoped_op) : {x = y} + {x <> y}.
Proof.
  decide equality;
    first [apply Nat.eq_dec | apply Bool.bool_dec | apply api_eq_dec].
Defined.

(** Every occurrence of [y] comes after an occurrence of [x]. *)
Definition happens_before (x y : scoped_op) (l : list scoped_op) : Prop :=
  forall l1 l2, l = l1 ++ y :: l2 -> In x l1.

Fixpoint happens_beforeb (x y : scoped_op) (l : list scoped_op) : bool :=
  match l with
  | [] => true
  | z :: l' =>
      if scoped_op_eq_dec z y then false
      else if scoped_op_eq_dec z x then true
      else happens_beforeb x y l'
  end.

Definition run_scopes {W} (sdk : SDK W) (w : W) : list scoped_op :=
  scoped 0 (trace (fst (run_go sdk w))).

(** The bucket and the key a remote call addresses, and the client it is
    made on. *)
Definition target (c : call) : option (string * string) :=
  match c with
  | put_object _ b k _ | get_object_acl _ b k | get_object _ b k
  | delete_object _ b k => Some (b, k)
  | _ => None
  end.

Definition receiver (c : call) : option pyval :=
  match c with
  | put_object self _ _ _ | get_object_acl self _ _ | get_object self _ _
  | delete_object self _ _ => Some self
  | _ => None
  end.

(** The SDK [sdk] with the content that a successful [read] returns replaced
    by [content]: everything else it answers, and every change it makes to
    the world, is as before. *)
Definition with_read_content {W} (sdk : SDK W) (content : pyval -> W -> pyval)
  : SDK W := {|
  sdk_call c w :=
    match c with
    | read self =>
        match sdk_call sdk c w with
        | (w', inr _) => (w', inr (content self w))
        | r => r
        end
    | _ => sdk_call sdk c w
    end;
  sdk_aexit := sdk_aexit sdk
|}.

(** A computation is orderly when it only appends to the trace and what it
    appends is sequential. *)
Definition orderly {W A} (m : M W A) : Prop :=
  forall s, exists d, trace (fst (m s)) = trace s ++ d /\ sequential d.

(** ** The claims that fail, as the specification words them *)

(** C3 as the specification words it: a run of [go] that returns has made
    exactly four awaited calls. *)
Definition four_awaited_calls : Prop :=
  forall (W : Type) (sdk : SDK W) (w : W),
    snd (run_go sdk w) = inr tt ->
    List.length (awaited (trace (fst (run_go sdk w)))) = 4.

(** C5 as the specification words its last part: whenever the client is
    released, all four remote calls have completed. *)
Definition client_released_after_all_four : Prop :=
  forall (W : Type) (sdk : SDK W) (w : W) (ok : bool) (a : api),
    In (Release 1 ok) (scoped 0 (trace (fst (run_go sdk w)))) ->
    remote a = true ->
    In a (completed (trace (fst (run_go sdk w)))).

(** ** An SDK to run the script against

    An object store in memory, with faults injected by a predicate on the
    calls. *)
Module FakeS3.

Record world : Type := {
  objects : list (string * string * bytes);
  stream : bytes
}.

Fixpoint lookup (os : list (string * string * bytes)) (b k : string)
  : option bytes :=
  match os with
  | [] => None
  | (b', k', d) :: os' =>
      if String.eqb b' b && String.eqb k' k then Some d else lookup os' b k
  end.

Fixpoint remove (os : list (string * string * bytes)) (b k : string)
  : list (string * string * bytes) :=
  match os with
  | [] => []
  | (b', k', d) :: os' =>
      if String.eqb b' b && String.eqb k' k then remove os' b k
      else (b', k', d) :: remove os' b k
  end.

Definition session : pyval := PObj "AioSession" 1.
Definition creator : pyval := PObj "ClientCreatorContext" 2.
Definition client : pyval := PObj "S3" 3.
Definition body : pyval := PObj "StreamingBody" 4.

Definition client_error : exn := PyErr "ClientError" "injected fault".
Definition no_such_key : exn := PyErr "NoSuchKey" "the key does not exist".

Definition answer (c : call) (w : world) : world * (exn + pyval) :=
  match c with
  | get_session => (w, inr session)
  | create_client _ _ _ _ _ _ => (w, inr creator)
  | aenter (PObj cls _ as m) =>
      (w, inr (if String.eqb cls "ClientCreatorContext" then client else m))
  | aenter m => (w, inr m)
  | aexit _ _ => (w, inr PNone)
  | put_object _ b k d =>
      ({| objects := (b, k, d) :: remove (objects w) b k; stream := stream w |},
       inr (PDict [("ETag", PStr "etag")]))
  | get_object_acl _ b k =>
      match lookup (objects w) b k with
      | Some _ => (w, inr (PDict [("Grants", PStr "FULL_CONTROL")]))
      | None => (w, inl no_such_key)
      end
  | get_object _ b k =>
      match lookup (objects w) b k with
      | Some d =>
          ({| objects := objects w; stream := d |},
           inr (PDict [("Body", body);
                       ("ContentLength", PInt (Z.of_nat (List.length d)))]))
      | None => (w, inl no_such_key)
      end
  | read _ => ({| objects := objects w; stream := [] |}, inr (PBytes (stream w)))
  | delete_object _ b k =>
      ({| objects := remove (objects w) b k; stream := stream w |},
       inr (PDict []))
  end.

Definition sdk (fails : call -> bool) : SDK world := {|
  sdk_call c w := if fails c then (w, inl client_error) else answer c w;
  sdk_aexit m e w :=
    if fails (aexit m e) then (w, inl client_error) else (w, inr tt)
|}.

Definition empty : world := {| objects := []; stream := [] |}.

Definition reliable (c : call) : bool := false.

Definition fails_at (a : api) (c : call) : bool := api_eqb (api_of c) a.

End FakeS3.

(** ** Further readings of a trace *)

(** What the answers in a trace call for on standard output, as [go] writes
    its prints: a label and the response after [put_object],
    [get_object_acl] and [delete_object] return; for [get_object], whose
    response is [pending] until then, the label and the response once the
    read of the body has returned. *)
Fixpoint report (pending : option pyval) (t : list event) : list pyval :=
  match t with
  | [] => []
  | Returned (put_object _ _ _ _) v :: t' =>
      PStr "PUT OBJECT RESPONSE:" :: v :: report pending t'
  | Returned (get_object_acl _ _ _) v :: t' =>
      PStr "GET OBJECT ACL RESPONSE:" :: v :: report pending t'
  | Returned (get_object _ _ _) v :: t' => report (Some v) t'
  | Returned (read _) _ :: t' =>
      match pending with
      | Some v => PStr "GET OBJECT RESPONSE:" :: v :: report None t'
      | None => report None t'
      end
  | Returned (delete_object _ _ _) v :: t' =>
      PStr "DELETE OBJECT RESPONSE:" :: v :: report pending t'
  | _ :: t' => report pending t'
  end.

(** Nothing but the calls of [async with] happens in [t]. *)
Definition quietb (t : list event) : bool :=
  match operations t, printed t with
  | [], [] => true
  | _, _ => false
  end.

(** After any exception, the rest of the trace issues no operation and
    prints nothing. *)
Definition silent_after_raise (t : list event) : Prop :=
  forall t1 c e t2,
    t = t1 ++ Raised c e :: t2 -> operations t2 = [] /\ printed t2 = [].

Fixpoint silent_after_raiseb (t : list event) : bool :=
  match t with
  | [] => true
  | Raised _ _ :: t' => quietb t' && silent_after_raiseb t'
  | _ :: t' => silent_after_raiseb t'
  end.

(** What has returned, in order, when DeleteObject is issued. *)
Definition steps_before_delete : list api :=
  [GET_SESSION; CREATE_CLIENT; AENTER; PUT_OBJECT; GET_OBJECT_ACL;
   GET_OBJECT; AENTER; READ; AEXIT].

(** The store in memory with a GetObject that answers without a Body. *)
Definition bodiless_sdk : SDK FakeS3.world := {|
  sdk_call c w :=
    match c with
    | get_object _ _ _ => (w, inr (PDict [("ContentLength", PInt 0)]))
    | _ => FakeS3.answer c w
    end;
  sdk_aexit m e w := (w, inr tt)
|}.

(** *** The script against the store in memory *)

Example key_of_the_object :
  remote_calls
    (trace (fst (run_go (FakeS3.sdk FakeS3.reliable) FakeS3.empty))) =
    [put_object FakeS3.client "dataintake" "aiobotocore/dummy.bin"
       (bytes_mul [x01] 1024);
     get_object_acl FakeS3.client "dataintake" "aiobotocore/dummy.bin";
     get_object FakeS3.client "dataintake" "aiobotocore/dummy.bin";
     delete_object FakeS3.client "dataintake" "aiobotocore/dummy.bin"].
Proof. reflexivity. Qed.

Example output_of_a_good_run :
  printed (trace (fst (run_go (FakeS3.sdk FakeS3.reliable) FakeS3.empty))) =
    [PStr "PUT OBJECT RESPONSE:"; PDict [("ETag", PStr "etag")];
     PStr "GET OBJECT ACL RESPONSE:"; PDict [("Grants", PStr "FULL_CONTROL")];
     PStr "GET OBJECT RESPONSE:";
     PDict [("Body", FakeS3.body); ("ContentLength", PInt 1024)];
     PStr "DELETE OBJECT RESPONSE:"; PDict []].
Proof. reflexivity. Qed.

Example store_after_a_good_run :
  world (fst (run_go (FakeS3.sdk FakeS3.reliable) FakeS3.empty)) =
    FakeS3.empty.
Proof. reflexivity. Qed.

Example read_failure_skips_the_delete :
  apis (trace (fst (run_go (FakeS3.sdk (FakeS3.fails_at READ))
                      FakeS3.empty))) =
    [GET_SESSION; CREATE_CLIENT; AENTER; PUT_OBJECT; GET_OBJECT_ACL;
     GET_OBJECT; AENTER; READ; AEXIT; AEXIT] /\
  snd (run_go (FakeS3.sdk (FakeS3.fails_at READ)) FakeS3.empty) =
    inl FakeS3.client_error.
Proof. split; reflexivity. Qed.

Example missing_body_is_a_key_error :
  subscript (PDict [("ContentLength", PInt 0)]) "Body" =
    inl (PyErr "KeyError" "Body").
Proof. reflexivity. Qed.

(** ** Proof support *)

Ltac unfold_script :=
  unfold run_go, go, async_with, await, invoke, invoke_aexit, print, emit,
    bind, lift, ret, raise, start;
  cbn -[subscript bytes_mul].

Ltac sdk_step :=
  match goal with
  | |- context [sdk_call ?s ?c ?w] =>
      let H := fresh "Hcall" in
      destruct (sdk_call s c w) as [? [?|?]] eqn:H
  | |- context [sdk_aexit ?s ?m ?e ?w] =>
      let H := fresh "Hexit" in
      destruct (sdk_aexit s m e w) as [? [?|[]]] eqn:H
  | |- context [subscript ?v ?k] =>
      let H := fresh "Hsub" in
      destruct (subscript v k) as [?|?] eqn:H
  end;
  cbn -[subscript bytes_mul].

Ltac go_cases := unfold_script; repeat sdk_step.

Ltac unfold_program := unfold run_program, script, asyncio_run.

(** Splits a membership in a computed trace into its cases. *)
Ltac in_cases H :=
  cbn -[subscript bytes_mul] in H;
  repeat (destruct H as [H | H]; [try discriminate H |]);
  try contradiction.

Ltac find_in := vm_compute; repeat (first [left; reflexivity | right]).

Ltac find_in_trace :=
  cbn -[subscript bytes_mul];
  solve [repeat (first [left; reflexivity | right])].

Lemma ends_by_rev {A} (t l t0 : list A) :
  rev t = rev l ++ t0 -> t = rev t0 ++ l.
Proof.
  intro H. rewrite <- (rev_involutive t), H, rev_app_distr, rev_involutive.
  reflexivity.
Qed.

Lemma bytes_mul_length (b : byte) (n : Z) :
  List.length (bytes_mul [b] n) = Z.to_nat n.
Proof.
  unfold bytes_mul.
  induction (Z.to_nat n) as [| k IH]; cbn; [reflexivity | now rewrite IH].
Qed.

Lemma bytes_mul_all (b : byte) (n : Z) :
  Forall (fun x => x = b) (bytes_mul [b] n).
Proof.
  unfold bytes_mul.
  induction (Z.to_nat n) as [| k IH]; cbn; constructor; auto.
Qed.

Lemma happens_beforeb_sound (x y : scoped_op) (l : list scoped_op) :
  happens_beforeb x y l = true -> happens_before x y l.
Proof.
  induction l as [| z l IH]; intros H l1 l2 E.
  - destruct l1; discriminate E.
  - cbn in H. destruct l1 as [| a l1]; cbn in E; inversion E; subst.
    + destruct (scoped_op_eq_dec y y); [discriminate H | congruence].
    + destruct (scoped_op_eq_dec a y); [discriminate H |].
      destruct (scoped_op_eq_dec a x); [now left |].
      right. now apply (IH H l1 l2).
Qed.

(** *** Sequential traces, compositionally *)

Lemma sequential_app (t1 t2 : list event) :
  sequential t1 -> sequential t2 -> sequential (t1 ++ t2).
Proof.
  induction 1; intro H2; cbn; try constructor; auto.
Qed.

Lemma sequential_in_flight (t : list event) :
  sequential t -> Forall (fun n => n <= 1) (in_flight 0 t).
Proof.
  induction 1; cbn; repeat constructor; auto.
Qed.

Section Orderly.

Context {W : Type}.
Variable sdk : SDK W.

Lemma orderly_ret {A} (a : A) : orderly (@ret W A a).
Proof.
  intro s. exists []. cbn. rewrite app_nil_r. split; [reflexivity | constructor].
Qed.

Lemma orderly_raise {A} (e : exn) : orderly (@raise W A e).
Proof.
  intro s. exists []. cbn. rewrite app_nil_r. split; [reflexivity | constructor].
Qed.

Lemma orderly_lift {A} (r : exn + A) : orderly (@lift W A r).
Proof.
  destruct r; [apply orderly_raise | apply orderly_ret].
Qed.

Lemma orderly_bind {A B} (m : M W A) (k : A -> M W B) :
  orderly m -> (forall a, orderly (k a)) -> orderly (bind m k).
Proof.
  intros Hm Hk s. unfold bind.
  destruct (Hm s) as [d1 [E1 S1]].
  destruct (m s) as [s1 [e | a]]; cbn in E1.
  - exists d1. auto.
  - destruct (Hk a s1) as [d2 [E2 S2]].
    exists (d1 ++ d2). rewrite E2, E1, app_assoc.
    split; [reflexivity | now apply sequential_app].
Qed.

Lemma orderly_print (v : pyval) : orderly (@print W v).
Proof.
  intro s. exists [Printed v]. split; [reflexivity | repeat constructor].
Qed.

Lemma orderly_invoke (m : mode) (c : call) : orderly (invoke sdk m c).
Proof.
  intro s. unfold invoke, bind, emit. cbn.
  destruct (sdk_call sdk c (world s)) as [w [e | v]]; cbn;
    rewrite <- app_assoc; eexists; (split; [reflexivity | repeat constructor]).
Qed.

Lemma orderly_invoke_aexit (mgr : pyval) (exc : option exn) :
  orderly (invoke_aexit sdk mgr exc).
Proof.
  intro s. unfold invoke_aexit, bind, emit. cbn.
  destruct (sdk_aexit sdk mgr exc (world s)) as [w [e | u]]; cbn;
    rewrite <- app_assoc; eexists; (split; [reflexivity | repeat constructor]).
Qed.

Lemma orderly_async_with (mgr : M W pyval) (body : pyval -> M W unit) :
  orderly mgr -> (forall x, orderly (body x)) ->
  orderly (async_with sdk mgr body).
Proof.
  intros Hm Hb. unfold async_with.
  apply orderly_bind; [assumption | intro m].
  apply orderly_bind; [apply orderly_invoke | intro x].
  intro s. destruct (Hb x s) as [d1 [E1 S1]].
  destruct (body x s) as [s1 [e | u]]; cbn in E1.
  - destruct (orderly_bind (invoke_aexit sdk m (Some e)) (fun _ => @raise W unit e)
                (orderly_invoke_aexit m (Some e))
                (fun _ => orderly_raise e) s1) as [d2 [E2 S2]].
    exists (d1 ++ d2). rewrite E2, E1, app_assoc.
    split; [reflexivity | now apply sequential_app].
  - destruct (orderly_invoke_aexit m None s1) as [d2 [E2 S2]].
    exists (d1 ++ d2). rewrite E2, E1, app_assoc.
    split; [reflexivity | now apply sequential_app].
Qed.

Lemma orderly_go : orderly (go sdk).
Proof.
  unfold go, await. cbv zeta.
  repeat first
    [ apply orderly_invoke
    | apply orderly_print
    | apply orderly_lift
    | apply orderly_async_with
    | apply orderly_bind
    | intro ].
Qed.

End Orderly.

(** ** The claims *)

(** C1. In every run of [go] the calls are made one at a time and in the
    order the source writes them: each call is answered before anything else
    is issued, so at most one call is in flight at any moment; the operations
    issued (session, client, PutObject, GetObjectAcl, GetObject, the read of
    the body, DeleteObject) form a prefix of the written order; and a run
    that returns has made all of them, with the scoping calls where the
    [async with] blocks begin and end. *)
Theorem go_one_call_at_a_time_in_written_order
  (W : Type) (sdk : SDK W) (w : W) :
  sequential (trace (fst (run_go sdk w))) /\
  Forall (fun n => n <= 1) (in_flight 0 (trace (fst (run_go sdk w)))) /\
  is_prefix (operations (trace (fst (run_go sdk w)))) written_order = true /\
  (snd (run_go sdk w) = inr tt ->
   apis (trace (fst (run_go sdk w))) =
     [GET_SESSION; CREATE_CLIENT; AENTER; PUT_OBJECT; GET_OBJECT_ACL;
      GET_OBJECT; AENTER; READ; AEXIT; DELETE_OBJECT; AEXIT]).
Proof.
  assert (Hseq : sequential (trace (fst (run_go sdk w)))).
  { destruct (orderly_go sdk (start w)) as [d [E S]].
    unfold run_go. rewrite E. exact S. }
  split; [exact Hseq | split; [now apply sequential_in_flight | clear Hseq]].
  go_cases; (split; [reflexivity | intro H; try discriminate H; reflexivity]).
Qed.

Lemma go_one_call_at_a_time_in_written_order_witness :
  snd (run_go (FakeS3.sdk FakeS3.reliable) FakeS3.empty) = inr tt /\
  apis (trace (fst (run_go (FakeS3.sdk FakeS3.reliable) FakeS3.empty))) =
    [GET_SESSION; CREATE_CLIENT; AENTER; PUT_OBJECT; GET_OBJECT_ACL;
     GET_OBJECT; AENTER; READ; AEXIT; DELETE_OBJECT; AEXIT].
Proof.
  split; [reflexivity |].
  apply (go_one_call_at_a_time_in_written_order
           FakeS3.world (FakeS3.sdk FakeS3.reliable) FakeS3.empty).
  reflexivity.
Defined.



(** C3, counterexample.  Against the object store in memory [go] returns
    after five awaited calls: [stream.read()] is awaited too. *)
Lemma go_awaits_the_read_too : ~ four_awaited_calls.
Proof.
  intro H.
  specialize (H FakeS3.world (FakeS3.sdk FakeS3.reliable) FakeS3.empty
                eq_refl).
  vm_compute in H. discriminate H.
Qed.

(** C3, amended.  The body of [go] is five awaited calls in a row: the four
    client calls and the read of the response body.  There is no branching:
    the awaited calls of any run are a prefix of that one list, and of a run
    that returns they are all of it, whatever the SDK answered.  There is no
    retry: no call is awaited twice.  There is no error handling: a run in
    which any call raised ends with an exception. *)
Theorem go_is_five_awaits_in_a_row (W : Type) (sdk : SDK W) (w : W) :
  is_prefix (map api_of (awaited (trace (fst (run_go sdk w)))))
    awaited_in_go = true /\
  NoDup (map api_of (awaited (trace (fst (run_go sdk w))))) /\
  (snd (run_go sdk w) = inr tt ->
   map api_of (awaited (trace (fst (run_go sdk w)))) = awaited_in_go) /\
  (forall c e, In (Raised c e) (trace (fst (run_go sdk w))) ->
               exists e', snd (run_go sdk w) = inl e').
Proof.
  go_cases.
  all: split; [reflexivity |].
  all: split; [repeat constructor; cbn; intuition discriminate |].
  all: split; [intro H; try discriminate H; reflexivity |].
  all: intros ? ? Hin; try (eexists; reflexivity).
  all: in_cases Hin.
Qed.

Lemma go_is_five_awaits_in_a_row_witness :
  snd (run_go (FakeS3.sdk FakeS3.reliable) FakeS3.empty) = inr tt /\
  map api_of
    (awaited (trace (fst (run_go (FakeS3.sdk FakeS3.reliable) FakeS3.empty))))
    = awaited_in_go.
Proof.
  split; [reflexivity |].
  apply (go_is_five_awaits_in_a_row
           FakeS3.world (FakeS3.sdk FakeS3.reliable) FakeS3.empty).
  reflexivity.
Defined.

(** C4. The client is configured from constants alone.  In every run of
    [go], whatever the SDK answers, any client created is created for the
    service s3 with the region mordor, the secret key and the access key
    xxx and the endpoint http://styx-prime:8333; and a run in which
    [get_session] returned creates exactly one client. *)
Theorem client_configuration_is_hardcoded
  (W : Type) (sdk : SDK W) (w : W) :
  (forall cfg, In cfg (client_configs (trace (fst (run_go sdk w)))) ->
     cfg = {| service := "s3"; region := "mordor"; secret_key := "xxx";
              access_key := "xxx"; endpoint := "http://styx-prime:8333" |}) /\
  (forall session,
     In (Returned get_session session) (trace (fst (run_go sdk w))) ->
     client_configs (trace (fst (run_go sdk w))) =
       [{| service := "s3"; region := "mordor"; secret_key := "xxx";
           access_key := "xxx"; endpoint := "http://styx-prime:8333" |}]).
Proof.
  go_cases.
  all: split; [intros cfg Hin; in_cases Hin; symmetry; exact Hin |].
  all: intros ? Hin; try reflexivity; in_cases Hin.
Qed.

Lemma client_configuration_is_hardcoded_witness :
  In (Returned get_session FakeS3.session)
     (trace (fst (run_go (FakeS3.sdk (FakeS3.fails_at PUT_OBJECT))
                    FakeS3.empty))) /\
  client_configs
    (trace (fst (run_go (FakeS3.sdk (FakeS3.fails_at PUT_OBJECT))
                   FakeS3.empty))) =
    [{| service := "s3"; region := "mordor"; secret_key := "xxx";
        access_key := "xxx"; endpoint := "http://styx-prime:8333" |}].
Proof.
  split; [find_in |].
  apply (proj2 (client_configuration_is_hardcoded FakeS3.world
                  (FakeS3.sdk (FakeS3.fails_at PUT_OBJECT)) FakeS3.empty)
           FakeS3.session).
  find_in.
Defined.

(** C5, counterexample.  When [put_object] raises, the [async with] block of
    the client is left at once and the client is released with no remote call
    completed. *)
Lemma client_released_on_failure : ~ client_released_after_all_four.
Proof.
  intro H.
  assert (Hin : In DELETE_OBJECT
                  (completed
                     (trace (fst (run_go
                                    (FakeS3.sdk (FakeS3.fails_at PUT_OBJECT))
                                    FakeS3.empty))))).
  { apply (H FakeS3.world (FakeS3.sdk (FakeS3.fails_at PUT_OBJECT))
             FakeS3.empty true DELETE_OBJECT); [find_in | reflexivity]. }
  vm_compute in Hin. intuition discriminate.
Qed.

(** C5, amended.  The client and the response body are the two scoped
    resources of [go], the body nested in the client: a manager that is
    entered is either what [create_client] returned or the Body of the
    GetObject response, and every scope entered is left again, also when the
    run fails.  In every run the release of the body has returned before
    DeleteObject is issued; the remote calls are issued with the client held
    and the body not; and the release of the client is the last thing a run
    does.  In a run that returns, the client is released after all four
    remote calls. *)
Theorem scoped_resources_are_released_in_order
  (W : Type) (sdk : SDK W) (w : W) :
  (forall mgr x,
     In (Returned (aenter mgr) x) (trace (fst (run_go sdk w))) ->
     (exists c, In (Returned c mgr) (trace (fst (run_go sdk w))) /\
                api_of c = CREATE_CLIENT) \/
     (exists c resp, In (Returned c resp) (trace (fst (run_go sdk w))) /\
                     api_of c = GET_OBJECT /\
                     subscript resp "Body" = inr mgr)) /\
  (forall n, In (Acquire n) (run_scopes sdk w) ->
             exists ok, In (Release n ok) (run_scopes sdk w)) /\
  happens_before (Release 2 true) (Op 1 DELETE_OBJECT) (run_scopes sdk w) /\
  (forall n a, In (Op n a) (run_scopes sdk w) -> remote a = true -> n = 1) /\
  (forall ok, In (Release 1 ok) (run_scopes sdk w) ->
              last (run_scopes sdk w) (Op 0 GET_SESSION) = Release 1 ok) /\
  (snd (run_go sdk w) = inr tt ->
   run_scopes sdk w =
     [Op 0 GET_SESSION; Op 0 CREATE_CLIENT; Acquire 1; Op 1 PUT_OBJECT;
      Op 1 GET_OBJECT_ACL; Op 1 GET_OBJECT; Acquire 2; Op 2 READ;
      Release 2 true; Op 1 DELETE_OBJECT; Release 1 true]).
Proof.
  unfold run_scopes. go_cases.
  all: split;
    [ intros mgr x Hin; in_cases Hin; inversion Hin; subst;
      first
        [ left; eexists; split; [find_in_trace | reflexivity]
        | right; do 2 eexists;
          (split; [| split; [| eassumption]]);
          [find_in_trace | reflexivity] ] |].
  all: split;
    [ intros n Hin; in_cases Hin; inversion Hin; subst;
      eexists; find_in_trace |].
  all: split; [apply happens_beforeb_sound; reflexivity |].
  all: split;
    [ intros n a Hin Hrem; in_cases Hin; inversion Hin; subst;
      first [reflexivity | discriminate Hrem] |].
  all: split;
    [ intros ok Hin; in_cases Hin; inversion Hin; subst; reflexivity |].
  all: intro H; try discriminate H; reflexivity.
Qed.

Lemma scoped_resources_are_released_in_order_witness :
  snd (run_go (FakeS3.sdk FakeS3.reliable) FakeS3.empty) = inr tt /\
  run_scopes (FakeS3.sdk FakeS3.reliable) FakeS3.empty =
    [Op 0 GET_SESSION; Op 0 CREATE_CLIENT; Acquire 1; Op 1 PUT_OBJECT;
     Op 1 GET_OBJECT_ACL; Op 1 GET_OBJECT; Acquire 2; Op 2 READ;
     Release 2 true; Op 1 DELETE_OBJECT; Release 1 true].
Proof.
  split; [reflexivity |].
  apply (scoped_resources_are_released_in_order
           FakeS3.world (FakeS3.sdk FakeS3.reliable) FakeS3.empty).
  reflexivity.
Defined.

(** Run as a program, the script hands [go] to [asyncio.run]: the trace of
    the program is the trace of [go] between the creation of the event loop
    and its closing, and the program ends as [go] ends. *)
Lemma program_runs_go_on_a_new_loop (W : Type) (sdk : SDK W) (w : W) :
  trace (fst (run_program sdk w)) =
    LoopCreated :: trace (fst (run_go sdk w)) ++ [LoopClosed] /\
  snd (run_program sdk w) =
    match snd (run_go sdk w) with
    | inr _ => Finished
    | inl e => Uncaught e
    end.
Proof.
  unfold_program. go_cases.
  all: split; reflexivity.
Qed.

(** C7. In every run of [go], the body handed to [put_object] is 1024 bytes
    long and each of its bytes is 0x01. *)
Theorem uploaded_body_is_1024_ones
  (W : Type) (sdk : SDK W) (w : W)
  (m : mode) (self : pyval) (b k : string) (body : bytes) :
  In (m, put_object self b k body) (issued (trace (fst (run_go sdk w)))) ->
  List.length body = 1024%nat /\ Forall (fun x => x = x01) body.
Proof.
  go_cases.
  all: intro Hin; in_cases Hin; inversion Hin; subst.
  all: split; [now rewrite bytes_mul_length | apply bytes_mul_all].
Qed.

Lemma uploaded_body_is_1024_ones_witness :
  In (Await, put_object FakeS3.client "dataintake" "aiobotocore/dummy.bin"
               (bytes_mul [x01] 1024))
     (issued (trace (fst (run_go (FakeS3.sdk FakeS3.reliable)
                            FakeS3.empty)))) /\
  List.length (bytes_mul [x01] 1024) = 1024%nat.
Proof.
  split; [find_in |].
  apply (uploaded_body_is_1024_ones FakeS3.world
           (FakeS3.sdk FakeS3.reliable) FakeS3.empty
           Await FakeS3.client "dataintake" "aiobotocore/dummy.bin").
  find_in.
Defined.

(** C8. In every run of [go], each remote call addresses the bucket
    dataintake and the key aiobotocore/dummy.bin, and all of them are made
    on the same client; a run that returns makes the four of them, upload
    first: the object read and deleted is the object uploaded. *)
Theorem remote_calls_address_the_uploaded_object
  (W : Type) (sdk : SDK W) (w : W) :
  (forall c, In c (remote_calls (trace (fst (run_go sdk w)))) ->
             target c = Some ("dataintake", "aiobotocore/dummy.bin")) /\
  (forall c1 c2, In c1 (remote_calls (trace (fst (run_go sdk w)))) ->
                 In c2 (remote_calls (trace (fst (run_go sdk w)))) ->
                 receiver c1 = receiver c2) /\
  (snd (run_go sdk w) = inr tt ->
   map api_of (remote_calls (trace (fst (run_go sdk w)))) =
     [PUT_OBJECT; GET_OBJECT_ACL; GET_OBJECT; DELETE_OBJECT]).
Proof.
  unfold remote_calls. go_cases.
  all: split; [intros c Hin; in_cases Hin; subst; reflexivity |].
  all: split;
    [ intros c1 c2 H1 H2; in_cases H1; in_cases H2; subst; reflexivity |].
  all: intro H; try discriminate H; reflexivity.
Qed.

Lemma remote_calls_address_the_uploaded_object_witness :
  snd (run_go (FakeS3.sdk FakeS3.reliable) FakeS3.empty) = inr tt /\
  map api_of
    (remote_calls
       (trace (fst (run_go (FakeS3.sdk FakeS3.reliable) FakeS3.empty)))) =
    [PUT_OBJECT; GET_OBJECT_ACL; GET_OBJECT; DELETE_OBJECT].
Proof.
  split; [reflexivity |].
  apply (remote_calls_address_the_uploaded_object
           FakeS3.world (FakeS3.sdk FakeS3.reliable) FakeS3.empty).
  reflexivity.
Defined.

(** C9. What [stream.read()] returns is dropped.  Two runs of [go] against
    SDKs that differ only in the content a read returns print the same
    values, issue the same calls with the same arguments (the DeleteObject
    request among them), leave the same world and end the same way. *)
Theorem read_content_is_discarded
  (W : Type) (sdk : SDK W) (w : W) (content1 content2 : pyval -> W -> pyval) :
  printed (trace (fst (run_go (with_read_content sdk content1) w))) =
    printed (trace (fst (run_go (with_read_content sdk content2) w))) /\
  issued (trace (fst (run_go (with_read_content sdk content1) w))) =
    issued (trace (fst (run_go (with_read_content sdk content2) w))) /\
  world (fst (run_go (with_read_content sdk content1) w)) =
    world (fst (run_go (with_read_content sdk content2) w)) /\
  snd (run_go (with_read_content sdk content1) w) =
    snd (run_go (with_read_content sdk content2) w).
Proof.
  unfold with_read_content. go_cases.
  all: repeat split; reflexivity.
Qed.


(** The content does reach the trace, as the value the read returned: the
    two runs compared in C9 are different runs. *)
Lemma read_content_reaches_the_trace :
  trace (fst (run_go (with_read_content (FakeS3.sdk FakeS3.reliable)
                        (fun _ _ => PBytes [x00]))
                FakeS3.empty)) <>
  trace (fst (run_go (with_read_content (FakeS3.sdk FakeS3.reliable)
                        (fun _ _ => PBytes [xff]))
                FakeS3.empty)).
Proof.
  vm_compute. intro H. inversion H.
Qed.

(** ** More of what [go] does *)

Lemma silent_after_raiseb_sound (t : list event) :
  silent_after_raiseb t = true -> silent_after_raise t.
Proof.
  induction t as [| ev t IH]; intros H t1 c e t2 E.
  - destruct t1; discriminate E.
  - destruct t1 as [| a t1]; cbn in E; inversion E; subst.
    + cbn in H. apply andb_prop in H. destruct H as [H _].
      unfold quietb in H.
      destruct (operations t2); [| discriminate H].
      destruct (printed t2); [| discriminate H].
      split; reflexivity.
    + apply (IH) with (t1 := t1) (c := c) (e := e); [| reflexivity].
      destruct a; cbn in H; try exact H.
      apply andb_prop in H. apply H.
Qed.

(** X1. [go] prints what the SDK answered and nothing else: in every run the
    output is, for each of PutObject, GetObjectAcl and DeleteObject that
    returned, its label and its response, and for GetObject its label and
    its response once the read of the body returned.  A run that returns
    has printed the four labels, each followed by the response of its
    call. *)
Theorem go_prints_the_responses (W : Type) (sdk : SDK W) (w : W) :
  printed (trace (fst (run_go sdk w))) =
    report None (trace (fst (run_go sdk w))) /\
  (snd (run_go sdk w) = inr tt ->
   exists c1 r1 c2 r2 c3 r3 c4 r4,
     printed (trace (fst (run_go sdk w))) =
       [PStr "PUT OBJECT RESPONSE:"; r1;
        PStr "GET OBJECT ACL RESPONSE:"; r2;
        PStr "GET OBJECT RESPONSE:"; r3;
        PStr "DELETE OBJECT RESPONSE:"; r4] /\
     map api_of [c1; c2; c3; c4] =
       [PUT_OBJECT; GET_OBJECT_ACL; GET_OBJECT; DELETE_OBJECT] /\
     In (Returned c1 r1) (trace (fst (run_go sdk w))) /\
     In (Returned c2 r2) (trace (fst (run_go sdk w))) /\
     In (Returned c3 r3) (trace (fst (run_go sdk w))) /\
     In (Returned c4 r4) (trace (fst (run_go sdk w)))).
Proof.
  go_cases.
  all: split; [reflexivity |].
  all: intro H; try discriminate H.
  do 8 eexists. split; [reflexivity |].
  split; [| repeat split; find_in_trace]. reflexivity.
Qed.

Lemma go_prints_the_responses_witness :
  snd (run_go (FakeS3.sdk FakeS3.reliable) FakeS3.empty) = inr tt /\
  exists c1 r1 c2 r2 c3 r3 c4 r4,
    printed (trace (fst (run_go (FakeS3.sdk FakeS3.reliable) FakeS3.empty))) =
      [PStr "PUT OBJECT RESPONSE:"; r1;
       PStr "GET OBJECT ACL RESPONSE:"; r2;
       PStr "GET OBJECT RESPONSE:"; r3;
       PStr "DELETE OBJECT RESPONSE:"; r4] /\
    map api_of [c1; c2; c3; c4] =
      [PUT_OBJECT; GET_OBJECT_ACL; GET_OBJECT; DELETE_OBJECT] /\
    In (Returned c1 r1)
       (trace (fst (run_go (FakeS3.sdk FakeS3.reliable) FakeS3.empty))) /\
    In (Returned c2 r2)
       (trace (fst (run_go (FakeS3.sdk FakeS3.reliable) FakeS3.empty))) /\
    In (Returned c3 r3)
       (trace (fst (run_go (FakeS3.sdk FakeS3.reliable) FakeS3.empty))) /\
    In (Returned c4 r4)
       (trace (fst (run_go (FakeS3.sdk FakeS3.reliable) FakeS3.empty))).
Proof.
  split; [reflexivity |].
  apply (go_prints_the_responses
           FakeS3.world (FakeS3.sdk FakeS3.reliable) FakeS3.empty).
  reflexivity.
Defined.

(** X2. [go] stops at the first failure: after any call has raised, be it a
    client call, the read, an [__aenter__] or an [__aexit__], the run issues
    no further operation and prints nothing; all it still does is leave the
    [async with] blocks it is in. *)
Theorem go_is_silent_after_a_failure (W : Type) (sdk : SDK W) (w : W) :
  silent_after_raise (trace (fst (run_go sdk w))).
Proof.
  apply silent_after_raiseb_sound.
  go_cases; reflexivity.
Qed.

Lemma go_is_silent_after_a_failure_witness :
  trace (fst (run_go (FakeS3.sdk (FakeS3.fails_at PUT_OBJECT)) FakeS3.empty)) =
    firstn 7 (trace (fst (run_go (FakeS3.sdk (FakeS3.fails_at PUT_OBJECT))
                            FakeS3.empty))) ++
    Raised (put_object FakeS3.client "dataintake" "aiobotocore/dummy.bin"
              (bytes_mul [x01] 1024)) FakeS3.client_error ::
    skipn 8 (trace (fst (run_go (FakeS3.sdk (FakeS3.fails_at PUT_OBJECT))
                           FakeS3.empty))) /\
  operations
    (skipn 8 (trace (fst (run_go (FakeS3.sdk (FakeS3.fails_at PUT_OBJECT))
                            FakeS3.empty)))) = [] /\
  printed
    (skipn 8 (trace (fst (run_go (FakeS3.sdk (FakeS3.fails_at PUT_OBJECT))
                            FakeS3.empty)))) = [].
Proof.
  split; [reflexivity |].
  apply (go_is_silent_after_a_failure FakeS3.world
           (FakeS3.sdk (FakeS3.fails_at PUT_OBJECT)) FakeS3.empty
           (firstn 7 (trace (fst (run_go
                                    (FakeS3.sdk (FakeS3.fails_at PUT_OBJECT))
                                    FakeS3.empty))))
           (put_object FakeS3.client "dataintake" "aiobotocore/dummy.bin"
              (bytes_mul [x01] 1024))
           FakeS3.client_error).
  reflexivity.
Defined.

(** X3. How a run of [go] ends.  A run that returns ends with the release of
    the client returning, told of no exception.  A run that fails with [e]
    ends in one of two ways: its last event is a call raising [e], and either
    that call is an [__aexit__] or no scope was entered at all (the failure
    came while the client was being acquired); or its last events are the
    release of the client, handed [e], and the return of that release. *)
Theorem go_ends_at_the_client_release (W : Type) (sdk : SDK W) (w : W) :
  (snd (run_go sdk w) = inr tt ->
   exists t0 mgr,
     trace (fst (run_go sdk w)) =
       t0 ++ [Issued AsyncWith (aexit mgr None);
              Returned (aexit mgr None) PNone]) /\
  (forall e, snd (run_go sdk w) = inl e ->
     (exists t0 c,
        trace (fst (run_go sdk w)) = t0 ++ [Raised c e] /\
        (api_of c = AEXIT \/ ~ In (Acquire 1) (run_scopes sdk w))) \/
     (exists t0 mgr,
        trace (fst (run_go sdk w)) =
          t0 ++ [Issued AsyncWith (aexit mgr (Some e));
                 Returned (aexit mgr (Some e)) PNone] /\
        last (run_scopes sdk w) (Op 0 GET_SESSION) = Release 1 true)).
Proof.
  unfold run_scopes. go_cases.
  all: split;
    [ intro H; try discriminate H;
      eexists (rev _); eexists; apply ends_by_rev; cbn; reflexivity |].
  all: intros ? H; try discriminate H; inversion H; subst.
  all: first
    [ right; eexists (rev _); eexists;
      split; [apply ends_by_rev; cbn; reflexivity | reflexivity]
    | left; eexists (rev _); eexists;
      split; [apply ends_by_rev; cbn; reflexivity |];
      first [left; reflexivity | right; cbn; intuition discriminate] ].
Qed.

Lemma go_ends_at_the_client_release_witness :
  snd (run_go (FakeS3.sdk FakeS3.reliable) FakeS3.empty) = inr tt /\
  exists t0 mgr,
    trace (fst (run_go (FakeS3.sdk FakeS3.reliable) FakeS3.empty)) =
      t0 ++ [Issued AsyncWith (aexit mgr None);
             Returned (aexit mgr None) PNone].
Proof.
  split; [reflexivity |].
  apply (go_ends_at_the_client_release
           FakeS3.world (FakeS3.sdk FakeS3.reliable) FakeS3.empty).
  reflexivity.
Defined.

(** X4. A GetObject response without a Body.  When [resp['Body']] raises
    (KeyError on a dictionary without that key), no body scope is entered,
    nothing is read and DeleteObject is never issued: the run leaves the
    block of the client, handing it that exception, and fails.  The calls of
    the run are exactly those up to GetObject and the release of the
    client, and the GetObject response is never printed. *)
Theorem missing_body_skips_read_and_delete
  (W : Type) (sdk : SDK W) (w : W) (c : call) (resp : pyval) (e : exn) :
  api_of c = GET_OBJECT ->
  In (Returned c resp) (trace (fst (run_go sdk w))) ->
  subscript resp "Body" = inl e ->
  apis (trace (fst (run_go sdk w))) =
    [GET_SESSION; CREATE_CLIENT; AENTER; PUT_OBJECT; GET_OBJECT_ACL;
     GET_OBJECT; AEXIT] /\
  (exists mgr,
     In (Issued AsyncWith (aexit mgr (Some e))) (trace (fst (run_go sdk w)))) /\
  List.length (printed (trace (fst (run_go sdk w)))) = 4%nat /\
  (exists e', snd (run_go sdk w) = inl e' /\
              (e' = e \/
               exists mgr, In (Raised (aexit mgr (Some e)) e')
                             (trace (fst (run_go sdk w))))).
Proof.
  intros Hapi Hin Hsub. revert Hin. go_cases.
  all: intro Hin; in_cases Hin; inversion Hin; subst; try discriminate Hapi.
  all: try congruence.
  all: match goal with
       | H1 : subscript ?r _ = inl ?a, H2 : subscript ?r _ = inl ?b |- _ =>
           assert (a = b) by congruence; subst
       end.
  all: split; [reflexivity |].
  all: split; [eexists; find_in_trace |].
  all: split; [reflexivity |].
  all: eexists; split; [reflexivity |].
  all: first [left; reflexivity | right; eexists; find_in_trace].
Qed.

Lemma missing_body_skips_read_and_delete_witness :
  In (Returned (get_object FakeS3.client "dataintake" "aiobotocore/dummy.bin")
        (PDict [("ContentLength", PInt 0)]))
     (trace (fst (run_go bodiless_sdk FakeS3.empty))) /\
  subscript (PDict [("ContentLength", PInt 0)]) "Body" =
    inl (PyErr "KeyError" "Body") /\
  apis (trace (fst (run_go bodiless_sdk FakeS3.empty))) =
    [GET_SESSION; CREATE_CLIENT; AENTER; PUT_OBJECT; GET_OBJECT_ACL;
     GET_OBJECT; AEXIT].
Proof.
  split; [find_in |]. split; [reflexivity |].
  apply (missing_body_skips_read_and_delete FakeS3.world bodiless_sdk
           FakeS3.empty
           (get_object FakeS3.client "dataintake" "aiobotocore/dummy.bin")
           (PDict [("ContentLength", PInt 0)])
           (PyErr "KeyError" "Body")).
  - reflexivity.
  - find_in.
  - reflexivity.
Defined.

(** X5. The handles are threaded as the source binds them.  [create_client]
    is called on the session [get_session] returned; every remote call is
    made on the client that the [__aenter__] of what [create_client]
    returned gave; the read is made on the stream that the [__aenter__] of
    the response's Body gave; and every [__aexit__] is called on a manager
    whose [__aenter__] has returned. *)
Theorem handles_are_threaded (W : Type) (sdk : SDK W) (w : W) :
  (forall m self s r sk ak ep,
     In (m, create_client self s r sk ak ep)
        (issued (trace (fst (run_go sdk w)))) ->
     In (Returned get_session self) (trace (fst (run_go sdk w)))) /\
  (forall c, In c (remote_calls (trace (fst (run_go sdk w)))) ->
     exists self mgr cc,
       receiver c = Some self /\
       In (Returned (aenter mgr) self) (trace (fst (run_go sdk w))) /\
       In (Returned cc mgr) (trace (fst (run_go sdk w))) /\
       api_of cc = CREATE_CLIENT) /\
  (forall m self,
     In (m, read self) (issued (trace (fst (run_go sdk w)))) ->
     exists body g resp,
       In (Returned (aenter body) self) (trace (fst (run_go sdk w))) /\
       In (Returned g resp) (trace (fst (run_go sdk w))) /\
       api_of g = GET_OBJECT /\
       subscript resp "Body" = inr body) /\
  (forall m mgr exc,
     In (m, aexit mgr exc) (issued (trace (fst (run_go sdk w)))) ->
     exists x, In (Returned (aenter mgr) x) (trace (fst (run_go sdk w)))).
Proof.
  unfold remote_calls. go_cases.
  all: split;
    [ intros ? ? ? ? ? ? ? Hin; in_cases Hin; inversion Hin; subst;
      find_in_trace |].
  all: split;
    [ intros ? Hin; in_cases Hin; subst;
      (do 3 eexists; split; [reflexivity |];
       split; [find_in_trace |]; split; [find_in_trace | reflexivity]) |].
  all: split;
    [ intros ? ? Hin; in_cases Hin; inversion Hin; subst;
      (do 3 eexists; split; [find_in_trace |];
       (split; [| split; [| eassumption]]); [find_in_trace | reflexivity]) |].
  all: intros ? ? ? Hin; in_cases Hin; inversion Hin; subst;
    eexists; find_in_trace.
Qed.

Lemma handles_are_threaded_witness :
  In (Await, read FakeS3.body)
     (issued (trace (fst (run_go (FakeS3.sdk FakeS3.reliable)
                            FakeS3.empty)))) /\
  exists body g resp,
    In (Returned (aenter body) FakeS3.body)
       (trace (fst (run_go (FakeS3.sdk FakeS3.reliable) FakeS3.empty))) /\
    In (Returned g resp)
       (trace (fst (run_go (FakeS3.sdk FakeS3.reliable) FakeS3.empty))) /\
    api_of g = GET_OBJECT /\
    subscript resp "Body" = inr body.
Proof.
  split; [find_in |].
  apply (proj1 (proj2 (proj2 (handles_are_threaded FakeS3.world
                                (FakeS3.sdk FakeS3.reliable) FakeS3.empty)))
           Await FakeS3.body).
  find_in.
Defined.

(** X6. A failing read unwinds both scopes, the inner one first.  When
    [stream.read()] raises [e], the run ends with the release of the body,
    handed [e], followed by the release of the client, handed what came out
    of the body's block ([e], or the exception of the body's release if that
    raised); [go] fails with what comes out of the client's block.  The
    GetObject response is not printed (the output is the four values of the
    first two calls) and DeleteObject is never issued. *)
Theorem read_failure_unwinds_both_scopes
  (W : Type) (sdk : SDK W) (w : W) (self : pyval) (e : exn) :
  In (Raised (read self) e) (trace (fst (run_go sdk w))) ->
  exists t0 body ev1 e1 creator ev2 e2,
    trace (fst (run_go sdk w)) =
      t0 ++ [Issued Await (read self); Raised (read self) e;
             Issued AsyncWith (aexit body (Some e)); ev1;
             Issued AsyncWith (aexit creator (Some e1)); ev2] /\
    (ev1 = Returned (aexit body (Some e)) PNone /\ e1 = e \/
     ev1 = Raised (aexit body (Some e)) e1) /\
    (ev2 = Returned (aexit creator (Some e1)) PNone /\ e2 = e1 \/
     ev2 = Raised (aexit creator (Some e1)) e2) /\
    snd (run_go sdk w) = inl e2 /\
    ~ In DELETE_OBJECT (apis (trace (fst (run_go sdk w)))) /\
    List.length (printed (trace (fst (run_go sdk w)))) = 4%nat.
Proof.
  go_cases.
  all: intro Hin; in_cases Hin; inversion Hin; subst.
  all: eexists (rev _); do 6 eexists.
  all: split; [apply ends_by_rev; cbn; reflexivity |].
  all: split; [first [left; split; reflexivity | right; reflexivity] |].
  all: split; [first [left; split; reflexivity | right; reflexivity] |].
  all: split; [reflexivity |].
  all: split; [cbn; intuition discriminate | reflexivity].
Qed.

Lemma read_failure_unwinds_both_scopes_witness :
  In (Raised (read FakeS3.body) FakeS3.client_error)
     (trace (fst (run_go (FakeS3.sdk (FakeS3.fails_at READ)) FakeS3.empty))) /\
  exists e2,
    snd (run_go (FakeS3.sdk (FakeS3.fails_at READ)) FakeS3.empty) = inl e2.
Proof.
  split; [find_in |].
  destruct (read_failure_unwinds_both_scopes FakeS3.world
              (FakeS3.sdk (FakeS3.fails_at READ)) FakeS3.empty
              FakeS3.body FakeS3.client_error)
    as [t0 [body [ev1 [e1 [creator [ev2 [e2 [_ [_ [_ [H _]]]]]]]]]]].
  - find_in.
  - exists e2. exact H.
Defined.

(** X7. DeleteObject is issued exactly when the read of the stream and the
    release of the body have returned, and by then every step before it has
    returned: the session,
    the client and its [__aenter__], the upload, the two reads of the
    object, the [__aenter__] of the body, the read of the stream and the
    release of the body.  A run in which any of these raised never issues
    the delete and leaves the uploaded object in place. *)
Theorem delete_is_issued_iff_body_released
  (W : Type) (sdk : SDK W) (w : W) :
  (In DELETE_OBJECT (apis (trace (fst (run_go sdk w)))) <->
   In READ (completed (trace (fst (run_go sdk w)))) /\
   In (Release 2 true) (run_scopes sdk w)) /\
  (In DELETE_OBJECT (apis (trace (fst (run_go sdk w)))) ->
   is_prefix steps_before_delete
     (completed (trace (fst (run_go sdk w)))) = true).
Proof.
  unfold run_scopes. go_cases.
  all: split; [split |]; intro H.
  all: first
    [ split; find_in_trace
    | find_in_trace
    | reflexivity
    | solve [in_cases H]
    | solve [destruct H as [H _]; in_cases H]
    | solve [destruct H as [_ H]; in_cases H] ].
Qed.

Lemma delete_is_issued_iff_body_released_witness :
  In DELETE_OBJECT
     (apis (trace (fst (run_go (FakeS3.sdk (FakeS3.fails_at DELETE_OBJECT))
                          FakeS3.empty)))) /\
  is_prefix steps_before_delete
    (completed (trace (fst (run_go (FakeS3.sdk (FakeS3.fails_at DELETE_OBJECT))
                              FakeS3.empty)))) = true.
Proof.
  split; [find_in |].
  apply (delete_is_issued_iff_body_released FakeS3.world
           (FakeS3.sdk (FakeS3.fails_at DELETE_OBJECT)) FakeS3.empty).
  find_in.
Defined.

(** What a failed run leaves in the store: the object uploaded. *)
Example failed_run_leaves_the_object :
  FakeS3.objects
    (world (fst (run_go (FakeS3.sdk (FakeS3.fails_at GET_OBJECT_ACL))
                   FakeS3.empty))) =
    [("dataintake", "aiobotocore/dummy.bin", bytes_mul [x01] 1024)].
Proof. reflexivity. Qed.

(** X9. A failure while the client is being acquired.  When a call raises
    [e] in a run that never entered a scope ([get_session], [create_client]
    or the [__aenter__] of the client raised), [go] fails with [e] itself,
    having released nothing, issued no remote call and printed nothing. *)
Theorem failure_before_the_client_is_held
  (W : Type) (sdk : SDK W) (w : W) (c : call) (e : exn) :
  In (Raised c e) (trace (fst (run_go sdk w))) ->
  ~ In (Acquire 1) (run_scopes sdk w) ->
  snd (run_go sdk w) = inl e /\
  ~ In AEXIT (apis (trace (fst (run_go sdk w)))) /\
  remote_calls (trace (fst (run_go sdk w))) = [] /\
  printed (trace (fst (run_go sdk w))) = [].
Proof.
  unfold run_scopes, remote_calls. go_cases.
  all: intros Hin Hno; in_cases Hin; inversion Hin; subst.
  all: try (exfalso; apply Hno; find_in_trace).
  all: split; [reflexivity |].
  all: split; [cbn; intuition discriminate |].
  all: split; reflexivity.
Qed.

Lemma failure_before_the_client_is_held_witness :
  In (Raised (aenter FakeS3.creator) FakeS3.client_error)
     (trace (fst (run_go (FakeS3.sdk (FakeS3.fails_at AENTER))
                    FakeS3.empty))) /\
  ~ In (Acquire 1)
       (run_scopes (FakeS3.sdk (FakeS3.fails_at AENTER)) FakeS3.empty) /\
  snd (run_go (FakeS3.sdk (FakeS3.fails_at AENTER)) FakeS3.empty) =
    inl FakeS3.client_error.
Proof.
  split; [find_in |].
  split; [vm_compute; intuition discriminate |].
  apply (failure_before_the_client_is_held FakeS3.world
           (FakeS3.sdk (FakeS3.fails_at AENTER)) FakeS3.empty
           (aenter FakeS3.creator) FakeS3.client_error).
  - find_in.
  - vm_compute; intuition discriminate.
Defined.
